(** * pf.accounting: daily cashflow aggregation and the cashflow statement

    A shallow embedding of [src/pf/accounting.py] ([calc_cashflow] and
    [cashflow_statement]) together with the part of Python and pandas the two
    functions rely on, and the properties of the specification proved (or
    refuted) against it.

    Conventions of the embedding:
    - a Python [dict] is a [gmap], a Python [set] a [gset];
    - a leaf rule is a dictionary with the three keys ['categories'],
      ['labels'] and ['logic']; an absent key is [None];
    - amounts are exact rationals ([Qc]); rounding of binary floating point is
      not modelled, and [NaN] (a missing cell) is [None];
    - a pandas [Timestamp] is its number of nanoseconds since the epoch, a
      [datetime.date] is its day number;
    - an exception is a value of [exn]; a function that can raise returns a
      [result]; a function that also mutates an object of its caller runs in
      the monad [M], which threads the [Store] of these objects;
    - the embedding covers the bodies of the two functions; of the module
      level only the names it binds are kept ([module_globals]), and the
      default value of [period] is left to the caller. *)

From Stdlib Require Import ZArith QArith Qcanon Lia.
From stdpp Require Import base numbers gmap strings list fin_maps pretty.

Open Scope Z_scope.

(** ** Python: exceptions, results, names *)

Module Py.

Inductive exn : Type :=
| KeyError (key : string)
| NameError (name : string)
| TypeError
| IndexError
| ValueError.

Inductive result (A : Type) : Type :=
| Ok (a : A)
| Raise (e : exn).
Arguments Ok {A} a.
Arguments Raise {A} e.

#[export] Instance exn_eq_dec : EqDecision exn.
Proof. solve_decision. Defined.

#[export] Instance result_eq_dec `{EqDecision A} : EqDecision (result A).
Proof. solve_decision. Defined.

#[export] Instance result_ret : MRet result := λ A a, Ok a.
#[export] Instance result_bind : MBind result := λ A B f m,
  match m with
  | Ok a => f a
  | Raise e => Raise e
  end.

(** [d[key]] on a dictionary whose entry for [key] is [o]. *)
Definition getitem {A} (key : string) (o : option A) : result A :=
  match o with
  | Some a => Ok a
  | None => Raise (KeyError key)
  end.

(** Truth value of a [str]: only the empty string is false. *)
Definition truthy (s : string) : bool := bool_decide (s ≠ "").

(** [x.isdisjoint(y)] on sets. *)
Definition isdisjoint (x y : gset string) : bool := bool_decide (x ## y).

End Py.
Import Py.

(** ** Data model *)

(** A leaf rule of the taxonomy, a [dict] with the keys ['categories']
    (required), ['labels'] and ['logic'] (optional). *)
Record Leaf : Type := mkLeaf {
  categories : option (gset string);
  labels : option (gset string);
  logic : option string
}.

#[export] Instance Leaf_eq_dec : EqDecision Leaf.
Proof. solve_decision. Defined.

(** [category_dict]: direction -> class -> leaf name -> leaf rule. *)
Abbreviation Taxonomy := (gmap string (gmap string (gmap string Leaf))).

(** A column key of the cashflow table: [(k0, k1, k2)]. *)
Abbreviation Key := (string * string * string)%type.

Abbreviation Timestamp := Z (only parsing).

(** One row of the [transactions] frame: its index label and the three
    columns ['category'], ['labels'] and ['amount']. *)
Record Transaction : Type := mkTransaction {
  t_index : Timestamp;
  t_category : string;
  t_labels : gset string;
  t_amount : Qc
}.

#[export] Instance Transaction_eq_dec : EqDecision Transaction.
Proof. solve_decision. Defined.

(** The objects of the caller that [calc_cashflow] receives by reference. *)
Record Store : Type := mkStore {
  category_dict : Taxonomy;
  transactions : list Transaction
}.

#[export] Instance Store_eq_dec : EqDecision Store.
Proof. solve_decision. Defined.

(** Computations that read and mutate the store and may raise. The store
    survives an exception: what was mutated before the raise stays mutated. *)
Definition M (A : Type) : Type := Store → result A * Store.

#[export] Instance M_ret : MRet M := λ A a s, (Ok a, s).
#[export] Instance M_bind : MBind M := λ A B f m s,
  match m s with
  | (Ok a, s') => f a s'
  | (Raise e, s') => (Raise e, s')
  end.

Definition lift {A} (r : result A) : M A := λ s, (r, s).
Definition get_category_dict : M Taxonomy := λ s, (Ok (category_dict s), s).
Definition get_transactions : M (list Transaction) := λ s, (Ok (transactions s), s).
Definition set_category_dict (T : Taxonomy) : M unit :=
  λ s, (Ok tt, {| category_dict := T; transactions := transactions s |}).

(** ** Taxonomy normalization (lines 78-84) *)

(** The body of the innermost loop: the two [has_key] tests and the
    assignments of the defaults. *)
Definition normalize_leaf (v2 : Leaf) : Leaf :=
  {| categories := categories v2;
     labels := match labels v2 with Some l => Some l | None => Some ∅ end;
     logic := match logic v2 with Some l => Some l | None => Some "" end |}.

(** The three nested loops visit every leaf once and update it in place. *)
Definition normalize (category_dict : Taxonomy) : Taxonomy :=
  (λ v0 : gmap string (gmap string Leaf),
     (λ v1 : gmap string Leaf, normalize_leaf <$> v1) <$> v0) <$> category_dict.

Definition normalize_taxonomy : M unit :=
  T ← get_category_dict;
  set_category_dict (normalize T).

(** A taxonomy is normalized when every leaf has its two optional keys. *)
Definition normalized_leaf (v2 : Leaf) : Prop :=
  is_Some (labels v2) ∧ is_Some (logic v2).

Definition normalized (T : Taxonomy) : Prop :=
  ∀ k0 k1 k2 v0 v1 v2,
    T !! k0 = Some v0 → v0 !! k1 = Some v1 → v1 !! k2 = Some v2 →
    normalized_leaf v2.

(** ** Classification (lines 87-105) *)

(** A [Series] of amounts: index labels and values, in row order. *)
Abbreviation Series := (list (Timestamp * Qc)).

(** The first [apply]: [lambda x: x.isdisjoint(v2['labels']) if v2['logic']
    else not x.isdisjoint(v2['labels'])]. *)
Definition has_label (v2 : Leaf) (x : gset string) : result bool :=
  lg ← getitem "logic" (logic v2);
  lb ← getitem "labels" (labels v2);
  mret (if truthy lg then isdisjoint x lb else negb (isdisjoint x lb)).

(** The second [apply]: [lambda x: v2['labels'] == set()]. The argument [x]
    (the labels of the transaction) is not used. *)
Definition no_labels (v2 : Leaf) (x : gset string) : result bool :=
  lb ← getitem "labels" (labels v2);
  mret (bool_decide (lb = ∅)).

(** The boolean mask [isin & (apply | apply)], one entry per transaction. *)
Definition mask (v2 : Leaf) (transactions : list Transaction) : result (list bool) :=
  cats ← getitem "categories" (categories v2);
  let in_category := (λ t, bool_decide (t_category t ∈ cats)) <$> transactions in
  correct_label ← mapM (λ t, has_label v2 (t_labels t)) transactions;
  unlabelled ← mapM (λ t, no_labels v2 (t_labels t)) transactions;
  mret (zip_with andb in_category (zip_with orb correct_label unlabelled)).

(** [transactions[mask]['amount']]. *)
Definition select_amount (transactions : list Transaction) (m : list bool) : Series :=
  (λ tb, (t_index tb.1, t_amount tb.1)) <$> filter (λ tb, tb.2 = true) (zip transactions m).

Definition bucket (v2 : Leaf) (transactions : list Transaction) : result Series :=
  m ← mask v2 transactions;
  mret (select_amount transactions m).

(** The leaves in the order of the three nested [iteritems]. *)
Definition leaves (category_dict : Taxonomy) : list (Key * Leaf) :=
  '(k0, v0) ← map_to_list category_dict;
  '(k1, v1) ← map_to_list v0;
  '(k2, v2) ← map_to_list v1;
  [((k0, k1, k2), v2)].

(** The dictionary comprehension: the first leaf that raises ends it. *)
Definition classify (category_dict : Taxonomy) (transactions : list Transaction)
  : result (gmap Key Series) :=
  items ← mapM (λ kv, s ← bucket kv.2 transactions; mret (kv.1, s)) (leaves category_dict);
  mret (list_to_map items).

(** The filters of a leaf with all its keys, as pure predicates. *)
Definition category_filter (cats : gset string) (t : Transaction) : bool :=
  bool_decide (t_category t ∈ cats).

Definition label_filter (lb : gset string) (lg : string) (t : Transaction) : bool :=
  (if truthy lg then isdisjoint (t_labels t) lb else negb (isdisjoint (t_labels t) lb))
  || bool_decide (lb = ∅).

(** ** pandas: timestamps, indexes, frames *)

Module Pandas.

(** Nanoseconds in a calendar day. *)
Definition day : Z := 86400000000000.

(** [x.date()]: the calendar day of a timestamp, its time of day dropped. *)
Definition date (x : Timestamp) : Z := x / day.

(** The timestamp of a [datetime.date]: midnight of that day. *)
Definition to_timestamp (d : Z) : Timestamp := d * day.

(** [pd.date_range(start, end)]: daily steps from [start] while not after
    [end]; the time of day of [start] is kept, and the range is empty when
    [start] is after [end]. *)
Definition date_range (start stop : Timestamp) : list Timestamp :=
  (λ k : nat, start + Z.of_nat k * day) <$> seq 0 (Z.to_nat ((stop - start) / day + 1)).

(** [index[i]], a negative [i] counting from the end. *)
Definition index_getitem (index : list Timestamp) (i : Z) : result Timestamp :=
  let n := Z.of_nat (length index) in
  let j := if decide (i < 0) then n + i else i in
  if decide (0 ≤ j) then
    match index !! Z.to_nat j with
    | Some x => Ok x
    | None => Raise IndexError
    end
  else Raise IndexError.

(** [pd.MultiIndex.from_tuples(tuples)]: the number of levels cannot be
    inferred from an empty list. *)
Definition MultiIndex_from_tuples (tuples : list Key) : result (list Key) :=
  match tuples with
  | [] => Raise TypeError
  | _ => Ok tuples
  end.

(** A frame of amounts: row labels, column keys, and for each column one
    cell per row ([None] is [NaN]). *)
Record DataFrame : Type := mkDataFrame {
  df_index : list Timestamp;
  df_columns : list Key;
  df_data : gmap Key (list (option Qc))
}.

#[export] Instance DataFrame_eq_dec : EqDecision DataFrame.
Proof. solve_decision. Defined.

(** [pd.DataFrame([], columns=columns, index=index)]: every cell missing. *)
Definition DataFrame_empty (columns : list Key) (index : list Timestamp) : DataFrame :=
  {| df_index := index;
     df_columns := columns;
     df_data := list_to_map ((λ c, (c, replicate (length index) None)) <$> columns) |}.


(** [c.groupby(lambda x: x.date()).sum()] on a one-column frame: one row
    per calendar day that occurs, holding the sum of its amounts. *)
Definition groupby_date_sum (c : Series) : gmap Z Qc :=
  foldr (λ (row : Timestamp * Qc) g,
           <[date row.1 := (row.2 + default 0 (g !! date row.1))%Qc]> g) ∅ c.

(** Alignment of a column indexed by dates with an index of timestamps: the
    dates are promoted to timestamps (midnight), then each label of the
    index is looked up; a label that is not found gives a missing cell. *)
Definition reindex (value : gmap Z Qc) (index : list Timestamp) : list (option Qc) :=
  let promoted : gmap Timestamp Qc := kmap to_timestamp value in
  (λ x, promoted !! x) <$> index.

(** [frame[cat] = value]: the column is aligned with the index of the frame
    and stored under [cat]. (On a frame whose index is empty the versions of
    pandas differ; it is aligned here like any other, and the properties
    below that speak of rows do not depend on it.) *)
Definition setitem (frame : DataFrame) (cat : Key) (value : gmap Z Qc) : DataFrame :=
  {| df_index := df_index frame;
     df_columns :=
       if decide (cat ∈ df_columns frame) then df_columns frame
       else df_columns frame ++ [cat];
     df_data := <[cat := reindex value (df_index frame)]> (df_data frame) |}.

(** [frame.fillna(v)]. *)
Definition fillna (v : Qc) (frame : DataFrame) : DataFrame :=
  {| df_index := df_index frame;
     df_columns := df_columns frame;
     df_data := (λ col : list (option Qc), (λ c, Some (default v c)) <$> col) <$> df_data frame |}.

End Pandas.
Import Pandas.

(** ** Sorting of the column keys (line 109) *)

(** Order of tuples of [str]: lexicographic, component by component. *)
Definition key_compare (a b : Key) : comparison :=
  match String.compare a.1.1 b.1.1 with
  | Eq =>
      match String.compare a.1.2 b.1.2 with
      | Eq => String.compare a.2 b.2
      | c => c
      end
  | c => c
  end.

Fixpoint insert_key (k : Key) (l : list Key) : list Key :=
  match l with
  | [] => [k]
  | k' :: l' =>
      match key_compare k k' with
      | Gt => k' :: insert_key k l'
      | _ => k :: l
      end
  end.

Definition sort_keys (l : list Key) : list Key := foldr insert_key [] l.

(** ** Assembly of the table (lines 108-115) *)

Definition assemble (cashflow_dict : gmap Key Series) (transactions : list Transaction)
  : result DataFrame :=
  let cols := sort_keys (map_to_list cashflow_dict).*1 in
  columns ← MultiIndex_from_tuples cols;
  start ← index_getitem (t_index <$> transactions) (-1);
  stop ← index_getitem (t_index <$> transactions) 0;
  let cashflow := DataFrame_empty columns (date_range start stop) in
  let cashflow :=
    map_fold (λ cat c frame, setitem frame cat (groupby_date_sum c)) cashflow cashflow_dict in
  mret (fillna 0%Qc cashflow).

(** ** [calc_cashflow] *)

Definition calc_cashflow : M DataFrame :=
  normalize_taxonomy;;
  category_dict ← get_category_dict;
  transactions ← get_transactions;
  cashflow_dict ← lift (classify category_dict transactions);
  lift (assemble cashflow_dict transactions).

(** ** [cashflow_statement] *)

(** Per-leaf totals of one period: rows of a frame with a three-level index
    and the single column ['$'], in row order. *)
Abbreviation Totals := (list (Key * Qc)).

(** A row of the statement: the columns ['$'] and ['%']. *)
Abbreviation Row := (Qc * Qc)%type.

(** The statement: three-level index, columns ['$'] and ['%']. *)
Abbreviation Statement := (gmap Key Row).

(** The [period] argument: a year number or a string. *)
Inductive Period : Type :=
| PInt (year : Z)
| PStr (s : string).

(** The objects a name of the module can be bound to. *)
Inductive object : Type :=
| PyFrame (rows : Totals)
| PyStr (s : string)
| PyModule (name : string)
| PyFunction (name : string).

(** [str(period)]. *)
Definition str (period : Period) : string :=
  match period with
  | PInt year => pretty year
  | PStr s => s
  end.

(** The names bound at the top level of the module: the [import] and the two
    [def]s. *)
Definition module_globals : gmap string object :=
  {[ "pd" := PyModule "pandas";
     "calc_cashflow" := PyFunction "calc_cashflow";
     "cashflow_statement" := PyFunction "cashflow_statement" ]}.

(** The built-in names the two functions use. *)
Definition builtins : gmap string object :=
  {[ "str" := PyFunction "str"; "set" := PyFunction "set" ]}.

(** Reading a name inside a function body: the local variables (parameters
    and names assigned in the body), then the globals of the module, then the
    built-ins. *)
Definition load_name (locals : gmap string object) (name : string) : result object :=
  match locals !! name with
  | Some o => Ok o
  | None =>
      match module_globals !! name with
      | Some o => Ok o
      | None =>
          match builtins !! name with
          | Some o => Ok o
          | None => Raise (NameError name)
          end
      end
  end.

(** [pd.DataFrame(data, columns=['$'])]. *)
Definition DataFrame_of (data : object) : result Totals :=
  match data with
  | PyFrame rows => Ok rows
  | _ => Raise ValueError
  end.

Definition add_row (a b : Row) : Row := ((a.1 + b.1)%Qc, (a.2 + b.2)%Qc).

(** [frame.sum(level=...)]: one row per value of the selected levels, holding
    the sum of the rows that share it. *)
Definition sum_level `{Countable K} {V} (add : V → V → V) (zero : V) {I}
    (level : I → K) (rows : list (I * V)) : gmap K V :=
  foldr (λ (row : I * V) g, <[level row.1 := add row.2 (default zero (g !! level row.1))]> g)
        ∅ rows.

(** Lines 136-139: the rows of the Net section, one per value of the second
    level. *)
Definition net_rows (cashflow : Totals) : Totals :=
  let by_category_type : gmap (string * string) Qc :=
    sum_level Qcplus 0%Qc (λ k : Key, (k.1.1, k.1.2)) cashflow in
  let by_type : gmap string Qc :=
    sum_level Qcplus 0%Qc (λ k : string * string, k.2) (map_to_list by_category_type) in
  (λ kv : string * Qc, (("Net", kv.1, "Total"), kv.2)) <$> map_to_list by_type.

(** Line 145: the percentage of each row within the first level. (A zero
    total gives 0 here, [NaN] or an infinity in floating point.) *)
Definition with_percent (cashflow : Totals) : list (Key * Row) :=
  let level0 : gmap string Qc := sum_level Qcplus 0%Qc (λ k : Key, k.1.1) cashflow in
  (λ kv : Key * Qc,
     (kv.1, (kv.2, (Q2Qc 100 * (kv.2 / default 0%Qc (level0 !! kv.1.1.1)))%Qc))) <$> cashflow.

(** Lines 148-154: the totals of the first two levels and of the first. *)
Definition l1_totals (cashflow : list (Key * Row)) : Statement :=
  let sums : gmap (string * string) Row :=
    sum_level add_row (0%Qc, 0%Qc) (λ k : Key, (k.1.1, k.1.2)) cashflow in
  list_to_map ((λ kv : string * string * Row, ((kv.1.1, kv.1.2, "Total"), kv.2))
                 <$> map_to_list sums).

Definition l0_totals (cashflow : list (Key * Row)) : Statement :=
  let sums : gmap string Row :=
    sum_level add_row (0%Qc, 0%Qc) (λ k : Key, k.1.1) cashflow in
  list_to_map ((λ kv : string * Row, ((kv.1, "Total", " "), kv.2)) <$> map_to_list sums).

(** [a.combine_first(b)]: the rows of [a], and the rows of [b] whose label is
    not in [a]. *)
Definition combine_first (a b : Statement) : Statement := a ∪ b.

(** Lines 134-160, from the frame built on line 133. Rows with the same label
    (possible after [pd.concat] when the input already has Net rows) are kept
    as the first of them. *)
Definition statement (cashflow : Totals) : Statement :=
  let net := net_rows cashflow in
  let cashflow := cashflow ++ net in
  let cashflow := with_percent cashflow in
  let l1 := l1_totals cashflow in
  let l0 := l0_totals cashflow in
  combine_first (combine_first (list_to_map cashflow) l1) l0.

(** The function as written: line 133 reads [cashflow_dict], the parameter is
    [cashflow]. *)
Definition cashflow_statement (cashflow : Totals) (period : Period) : result Statement :=
  let period := str period in
  let locals : gmap string object :=
    {[ "cashflow" := PyFrame cashflow; "period" := PyStr period ]} in
  cashflow_dict ← load_name locals "cashflow_dict";
  cashflow ← DataFrame_of cashflow_dict;
  mret (statement cashflow).

(** ** Vocabulary of the properties *)

(** The leaf rule under direction [k0], class [k1] and leaf name [k2]. *)
Definition leaf_at (T : Taxonomy) (k0 k1 k2 : string) : option Leaf :=
  v0 ← T !! k0; v1 ← v0 !! k1; v1 !! k2.

(** The two values of ['logic']: the default [''] is false, any other string
    (the docstring proposes ['not']) is true. *)
Definition normal (lg : string) : Prop := lg = "".
Definition inverted (lg : string) : Prop := lg ≠ "".

(** A transaction passes the label filter of a leaf when the disjunction of
    the two [apply] masks is true on its row. *)
Definition passes_label_filter (v2 : Leaf) (t : Transaction) : Prop :=
  ∃ b1 b2, has_label v2 (t_labels t) = Ok b1
           ∧ no_labels v2 (t_labels t) = Ok b2
           ∧ b1 || b2 = true.

(** A transaction passes both filters of a leaf with all its keys. *)
Definition matches (cats lb : gset string) (lg : string) (t : Transaction) : bool :=
  category_filter cats t && label_filter lb lg t.

(** The row a selected transaction contributes to the bucket of a leaf. *)
Definition row (t : Transaction) : Timestamp * Qc := (t_index t, t_amount t).

(** An amount given as an integer. *)
Definition amt (z : Z) : Qc := Q2Qc (inject_Z z).

(** ** Examples of the specification *)

(** The leaf rule of the label examples: categories [{"Grocery"}], labels
    [{"Shared"}], and the given ['logic']. *)
Definition grocery_rule (lg : option string) : Leaf :=
  {| categories := Some {["Grocery"]}; labels := Some {["Shared"]}; logic := lg |}.

Definition grocery_taxonomy (lg : option string) : Taxonomy :=
  {[ "Outflow" := {[ "Operating" := {[ "Food" := grocery_rule lg ]} ]} ]}.

Definition tx_shared (x : Timestamp) : Transaction :=
  {| t_index := x; t_category := "Grocery"; t_labels := {["Shared"]}; t_amount := amt (-50) |}.
Definition tx_other (x : Timestamp) : Transaction :=
  {| t_index := x; t_category := "Grocery"; t_labels := {["Other"]}; t_amount := amt (-30) |}.
Definition tx_unlabelled (x : Timestamp) : Transaction :=
  {| t_index := x; t_category := "Grocery"; t_labels := ∅; t_amount := amt (-10) |}.

(** The three transactions of the label example, newest first. *)
Definition grocery_transactions : list Transaction :=
  [tx_shared (to_timestamp 3); tx_other (to_timestamp 2); tx_unlabelled (to_timestamp 1)].

(** A taxonomy with a leaf that has no ['categories'], next to a leaf that
    has them. *)
Definition malformed_taxonomy : Taxonomy :=
  {[ "Inflow" := {[ "Operating" :=
       {[ "Salary" := {| categories := None; labels := None; logic := None |} ]} ]};
     "Outflow" := {[ "Operating" := {[ "Food" := grocery_rule None ]} ]} ]}.



(** The table of the label example: one row per day from 1 to 3. *)
Definition grocery_table : DataFrame :=
  {| df_index := [to_timestamp 1; to_timestamp 2; to_timestamp 3];
     df_columns := [("Outflow", "Operating", "Food")];
     df_data := {[ ("Outflow", "Operating", "Food") :=
                     [Some 0%Qc; Some 0%Qc; Some (amt (-50))] ]} |}.

(** The per-leaf totals of the statement example. *)
Definition salary_interest_rent : Totals :=
  [ (("Inflow", "Operating", "Salary"), amt 1000);
    (("Inflow", "NonOperating", "Interest"), amt 50);
    (("Outflow", "Operating", "Rent"), amt (-700)) ].

(** Closed equalities of values that contain amounts are decided. *)
Ltac decide_eq := apply (bool_decide_unpack _); vm_compute; exact I.


(** * Properties *)

(** ** The result monad *)

Lemma mapM_Ok {A B} (g : A → B) (l : list A) :
  mapM (λ x, Ok (g x)) l = Ok (g <$> l).
Proof.
  induction l as [|x l IH]; [done|].
  cbn [mapM]. rewrite IH. done.
Qed.


Lemma mapM_Raise {A B} (f : A → result B) (e : exn) (l : list A) :
  (∀ x, x ∈ l → (∃ y, f x = Ok y) ∨ f x = Raise e) →
  (∃ x, x ∈ l ∧ f x = Raise e) →
  mapM f l = Raise e.
Proof.
  induction l as [|x l IH]; intros Hall [x0 [Hin Hx0]].
  - by apply elem_of_nil in Hin.
  - cbn [mapM]. destruct (Hall x) as [[y Hy]|Hy]; [by left| |by rewrite Hy].
    rewrite Hy. cbn.
    apply elem_of_cons in Hin as [->|Hin]; [congruence|].
    rewrite IH; [done| |by exists x0].
    intros z Hz. apply Hall. by right.
Qed.


(** ** Normalization *)

Lemma normalize_leaf_idem v2 : normalize_leaf (normalize_leaf v2) = normalize_leaf v2.
Proof. destruct v2 as [c [l|] [g|]]; reflexivity. Qed.

Lemma normalize_leaf_normalized v2 : normalized_leaf (normalize_leaf v2).
Proof. destruct v2 as [c [l|] [g|]]; split; cbn; eauto. Qed.


Lemma leaf_at_Some T k0 k1 k2 v2 :
  leaf_at T k0 k1 k2 = Some v2 ↔
  ∃ v0 v1, T !! k0 = Some v0 ∧ v0 !! k1 = Some v1 ∧ v1 !! k2 = Some v2.
Proof.
  unfold leaf_at. split.
  - destruct (T !! k0) as [v0|]; [|done]. cbn.
    destruct (v0 !! k1) as [v1|] eqn:H1; [|done]. cbn. intros H. by exists v0, v1.
  - intros (v0 & v1 & -> & H1 & H2). cbn. rewrite H1. done.
Qed.

Lemma leaf_at_normalize T k0 k1 k2 :
  leaf_at (normalize T) k0 k1 k2 = normalize_leaf <$> leaf_at T k0 k1 k2.
Proof.
  unfold leaf_at, normalize. rewrite lookup_fmap.
  destruct (T !! k0) as [v0|]; [|done]. cbn. rewrite lookup_fmap.
  destruct (v0 !! k1) as [v1|]; [|done]. cbn. by rewrite lookup_fmap.
Qed.

Lemma normalize_idem T : normalize (normalize T) = normalize T.
Proof.
  unfold normalize. rewrite <- map_fmap_compose. apply map_fmap_ext.
  intros k0 v0 _. cbn. rewrite <- map_fmap_compose. apply map_fmap_ext.
  intros k1 v1 _. cbn. rewrite <- map_fmap_compose. apply map_fmap_ext.
  intros k2 v2 _. apply normalize_leaf_idem.
Qed.

Lemma normalize_normalized T : normalized (normalize T).
Proof.
  intros k0 k1 k2 v0 v1 v2 H0 H1 H2.
  assert (leaf_at (normalize T) k0 k1 k2 = Some v2) as H
    by (apply leaf_at_Some; eauto).
  rewrite leaf_at_normalize in H.
  destruct (leaf_at T k0 k1 k2); [|done]. injection H as <-.
  apply normalize_leaf_normalized.
Qed.


(** ** The leaves of a taxonomy *)

Lemma elem_of_leaves T k0 k1 k2 v2 :
  ((k0, k1, k2), v2) ∈ leaves T ↔ leaf_at T k0 k1 k2 = Some v2.
Proof.
  rewrite leaf_at_Some. unfold leaves. rewrite list_elem_of_bind. split.
  - intros ([k0' v0] & H & H0). apply elem_of_map_to_list in H0.
    apply list_elem_of_bind in H as ([k1' v1] & H & H1). apply elem_of_map_to_list in H1.
    apply list_elem_of_bind in H as ([k2' v2'] & H & H2). apply elem_of_map_to_list in H2.
    apply list_elem_of_singleton in H. injection H as -> -> -> ->. eauto.
  - intros (v0 & v1 & H0 & H1 & H2). exists (k0, v0). split; [|by apply elem_of_map_to_list].
    apply list_elem_of_bind. exists (k1, v1). split; [|by apply elem_of_map_to_list].
    apply list_elem_of_bind. exists (k2, v2). split; [|by apply elem_of_map_to_list].
    by apply list_elem_of_singleton.
Qed.



(** ** Buckets *)

Lemma select_amount_matches cats lb lg txs :
  select_amount txs
    (zip_with andb ((λ t, bool_decide (t_category t ∈ cats)) <$> txs)
       (zip_with orb
          ((λ t, if truthy lg then isdisjoint (t_labels t) lb
                 else negb (isdisjoint (t_labels t) lb)) <$> txs)
          ((λ t, bool_decide (lb = ∅)) <$> txs)))
  = row <$> filter (λ t, matches cats lb lg t = true) txs.
Proof.
  unfold select_amount.
  induction txs as [|t txs IH]; [done|].
  rewrite !fmap_cons. cbn [zip_with]. rewrite !filter_cons. cbn [snd fst].
  unfold matches at 1. unfold category_filter, label_filter.
  repeat case_decide; rewrite ?fmap_cons, IH; try done; congruence.
Qed.

Lemma bucket_full v2 cats lb lg txs :
  categories v2 = Some cats → labels v2 = Some lb → logic v2 = Some lg →
  bucket v2 txs = Ok (row <$> filter (λ t, matches cats lb lg t = true) txs).
Proof.
  intros Hc Hl Hg. unfold bucket, mask, has_label, no_labels.
  rewrite Hc, Hl, Hg. cbn.
  rewrite (mapM_Ok (λ t, if truthy lg then isdisjoint (t_labels t) lb
                         else negb (isdisjoint (t_labels t) lb))).
  cbn. rewrite (mapM_Ok (λ t, bool_decide (lb = ∅))). cbn.
  f_equal. apply select_amount_matches.
Qed.

Lemma bucket_no_categories v2 txs :
  categories v2 = None → bucket v2 txs = Raise (KeyError "categories").
Proof. intros Hc. unfold bucket, mask. by rewrite Hc. Qed.

Lemma bucket_normalized v2 txs :
  normalized_leaf v2 →
  (∃ s, bucket v2 txs = Ok s) ∨ bucket v2 txs = Raise (KeyError "categories").
Proof.
  intros [[lb Hl] [lg Hg]]. destruct (categories v2) as [cats|] eqn:Hc.
  - left. eexists. by apply bucket_full.
  - right. by apply bucket_no_categories.
Qed.

(** ** The dictionary of buckets *)


Lemma classify_no_categories T txs k0 k1 k2 v2 :
  normalized T →
  leaf_at T k0 k1 k2 = Some v2 → categories v2 = None →
  classify T txs = Raise (KeyError "categories").
Proof.
  intros HT Hleaf Hc. unfold classify.
  rewrite (mapM_Raise _ (KeyError "categories")); [done| |].
  - intros [[[j0 j1] j2] w] Hin. apply elem_of_leaves in Hin.
    apply leaf_at_Some in Hin as (w0 & w1 & ? & ? & ?).
    cbn. destruct (bucket_normalized w txs) as [[s ->]| ->]; [by eapply HT| |]; cbn; eauto.
  - exists ((k0, k1, k2), v2). split; [by apply elem_of_leaves|].
    cbn. by rewrite bucket_no_categories.
Qed.

(** ** Store and result of [calc_cashflow] *)

Lemma calc_cashflow_store s :
  (calc_cashflow s).2 =
  {| category_dict := normalize (category_dict s); transactions := transactions s |}.
Proof.
  unfold calc_cashflow, normalize_taxonomy, get_category_dict, get_transactions,
    set_category_dict, lift, mbind, M_bind. cbn [category_dict transactions].
  destruct (classify (normalize (category_dict s)) (transactions s)) as [cd|e];
    cbn [mbind result_bind fst snd]; [|done].
  by destruct (assemble cd (transactions s)).
Qed.

Lemma calc_cashflow_result s :
  (calc_cashflow s).1 =
  (cashflow_dict ← classify (normalize (category_dict s)) (transactions s);
   assemble cashflow_dict (transactions s)).
Proof.
  unfold calc_cashflow, normalize_taxonomy, get_category_dict, get_transactions,
    set_category_dict, lift, mbind, M_bind. cbn [category_dict transactions].
  destruct (classify (normalize (category_dict s)) (transactions s)) as [cd|e];
    cbn [mbind result_bind fst snd]; [|done].
  by destruct (assemble cd (transactions s)).
Qed.

(** ** Dates and date ranges *)

Lemma day_pos : 0 < day.
Proof. reflexivity. Qed.

#[export] Instance to_timestamp_inj : Inj (=) (=) to_timestamp.
Proof. intros d d'. unfold to_timestamp. pose proof day_pos. nia. Qed.






(** ** Group sums and alignment *)




(** ** Assembly *)









Lemma passes_label_filter_iff v2 lb lg t :
  labels v2 = Some lb → logic v2 = Some lg →
  passes_label_filter v2 t ↔ label_filter lb lg t = true.
Proof.
  intros Hl Hg. unfold passes_label_filter, has_label, no_labels, label_filter.
  rewrite Hl, Hg. cbn. split.
  - intros (b1 & b2 & [= <-] & [= <-] & H). exact H.
  - intros H. eauto.
Qed.


(** ** The statement *)

(** The name read on line 133 is bound nowhere. *)
Lemma cashflow_dict_unbound (cashflow : Totals) (period : Period) :
  cashflow_statement cashflow period = Raise (NameError "cashflow_dict").
Proof.
  unfold cashflow_statement, load_name.
  rewrite lookup_insert_ne by done. rewrite lookup_singleton_ne by done.
  reflexivity.
Qed.

(** What lines 134-160 compute from the totals of the example, were the
    frame of line 133 built from the parameter [cashflow]. *)
Lemma statement_salary_interest_rent :
  let st := statement salary_interest_rent in
  fst <$> st !! ("Inflow", "Operating", "Total") = Some (amt 1000)
  ∧ fst <$> st !! ("Inflow", "Total", " ") = Some (amt 1050)
  ∧ fst <$> st !! ("Net", "Operating", "Total") = Some (amt 300)
  ∧ fst <$> st !! ("Net", "NonOperating", "Total") = Some (amt 50)
  ∧ snd <$> st !! ("Inflow", "Operating", "Salary")
    = Some (Q2Qc 100 * (amt 1000 / amt 1050))%Qc
  ∧ (Q2Qc (95235 # 1000) ≤ Q2Qc 100 * (amt 1000 / amt 1050) < Q2Qc (95245 # 1000))%Qc.
Proof. cbn zeta. repeat split; decide_eq. Qed.

(** ** The index of the table *)


(** ** Claims *)

(** C9. Taxonomy normalization is idempotent: running the pass twice gives
    the same taxonomy (and the same store) as running it once. *)
Theorem normalization_idempotent (T : Taxonomy) (s : Store) :
  normalize (normalize T) = normalize T
  ∧ (normalize_taxonomy;; normalize_taxonomy) s = normalize_taxonomy s.
Proof.
  split; [apply normalize_idem|].
  unfold normalize_taxonomy, get_category_dict, set_category_dict, mbind, M_bind.
  cbn. by rewrite normalize_idem.
Qed.

(** C10. [calc_cashflow] changes the taxonomy of its caller only by adding the
    defaults of ['labels'] and ['logic'] where they are missing: no leaf is
    added or removed, ['categories'] and every ['labels'] or ['logic'] that
    was present are unchanged; the transactions are not changed. This holds
    whether the call returns or raises. *)
Theorem calc_cashflow_frame (s : Store) :
  let s' := (calc_cashflow s).2 in
  transactions s' = transactions s
  ∧ dom (category_dict s') = dom (category_dict s)
  ∧ ∀ k0 k1 k2,
      match leaf_at (category_dict s) k0 k1 k2 with
      | None => leaf_at (category_dict s') k0 k1 k2 = None
      | Some v2 =>
          ∃ v2', leaf_at (category_dict s') k0 k1 k2 = Some v2'
            ∧ categories v2' = categories v2
            ∧ labels v2' = Some (default ∅ (labels v2))
            ∧ logic v2' = Some (default "" (logic v2))
            ∧ (∀ lb, labels v2 = Some lb → labels v2' = Some lb)
            ∧ (∀ lg, logic v2 = Some lg → logic v2' = Some lg)
      end.
Proof.
  cbn zeta. rewrite calc_cashflow_store. cbn [transactions category_dict].
  split; [done|]. split; [apply dom_fmap_L|].
  intros k0 k1 k2. rewrite leaf_at_normalize.
  destruct (leaf_at (category_dict s) k0 k1 k2) as [v2|]; [|done].
  exists (normalize_leaf v2). destruct v2 as [c [lb|] [lg|]]; cbn; repeat split; congruence.
Qed.

(** C2. For a leaf rule with all its keys and a transaction whose category
    is in the rule's categories, the transaction passes the label filter
    exactly when the rule's labels are empty, or the logic is normal and the
    labels intersect, or the logic is inverted and the labels are disjoint;
    passing decides whether its row is in the bucket of the leaf. Under
    inverted logic with labels [{"Shared"}], a transaction labelled
    [{"Shared"}] is excluded and one labelled [{"Other"}] is included. *)
Theorem label_filter_rule (v2 : Leaf) (cats lb : gset string) (lg : string)
    (t : Transaction) :
  categories v2 = Some cats → labels v2 = Some lb → logic v2 = Some lg →
  t_category t ∈ cats →
  (passes_label_filter v2 t ↔
     lb = ∅ ∨ (normal lg ∧ ¬ t_labels t ## lb) ∨ (inverted lg ∧ t_labels t ## lb))
  ∧ (passes_label_filter v2 t ↔ bucket v2 [t] = Ok [row t])
  ∧ (¬ passes_label_filter v2 t ↔ bucket v2 [t] = Ok [])
  ∧ (inverted lg → lb = {["Shared"]} →
       (t_labels t = {["Shared"]} → bucket v2 [t] = Ok [])
       ∧ (t_labels t = {["Other"]} → bucket v2 [t] = Ok [row t])).
Proof.
  intros Hc Hl Hg Hcat.
  rewrite (passes_label_filter_iff v2 lb lg t Hl Hg).
  rewrite (bucket_full v2 cats lb lg [t] Hc Hl Hg).
  assert (label_filter lb lg t = true ↔
          lb = ∅ ∨ (normal lg ∧ ¬ t_labels t ## lb) ∨ (inverted lg ∧ t_labels t ## lb))
    as Hiff.
  { unfold label_filter, truthy, isdisjoint, normal, inverted.
    rewrite orb_true_iff, bool_decide_eq_true.
    destruct (decide (lg = "")) as [->|Hlg].
    - rewrite bool_decide_eq_false_2 by auto. rewrite negb_true_iff, bool_decide_eq_false.
      split; [intros [?|?]; auto|intros [?|[[_ ?]|[? _]]]; auto; done].
    - rewrite bool_decide_eq_true_2 by done. rewrite bool_decide_eq_true.
      split; [intros [?|?]; auto|intros [?|[[? _]|[_ ?]]]; auto; done]. }
  assert (matches cats lb lg t = label_filter lb lg t) as Hm.
  { unfold matches, category_filter. by rewrite bool_decide_eq_true_2. }
  assert (∀ b : bool, filter (λ t, matches cats lb lg t = true) [t] = (if b then [t] else [])
            ↔ label_filter lb lg t = b) as Hb.
  { intros b. rewrite filter_cons, filter_nil, Hm.
    destruct (label_filter lb lg t), b; cbn; split; intros; by simplify_eq. }
  split; [exact Hiff|]. split; [|split].
  - rewrite <- (Hb true). split; [by intros ->|]. intros [= H].
    destruct (filter _ [t]) as [|? [|? ?]] eqn:Hf; simplify_eq/=.
    rewrite filter_cons, filter_nil in Hf. case_decide; by simplify_eq.
  - rewrite not_true_iff_false, <- (Hb false). split; [by intros ->|]. intros [= H].
    by destruct (filter _ [t]).
  - intros Hinv ->. split; intros Hlabels.
    + rewrite (proj2 (Hb false)); [done|]. apply not_true_iff_false.
      rewrite Hiff, Hlabels. unfold normal, inverted in *.
      intros [H|[[H _]|[_ H]]]; [|done|].
      * by apply non_empty_singleton_L in H.
      * apply disjoint_singleton_l in H. by apply H, elem_of_singleton.
    + rewrite (proj2 (Hb true)); [done|]. rewrite Hiff, Hlabels.
      right. right. split; [done|]. apply disjoint_singleton_l.
      by intros H%elem_of_singleton.
Qed.

Lemma label_filter_rule_witness :
  (passes_label_filter (grocery_rule (Some "not")) (tx_other 0) ↔
     ({["Shared"]} : gset string) = ∅
     ∨ (normal "not" ∧ ¬ t_labels (tx_other 0) ## ({["Shared"]} : gset string))
     ∨ (inverted "not" ∧ t_labels (tx_other 0) ## ({["Shared"]} : gset string)))
  ∧ (passes_label_filter (grocery_rule (Some "not")) (tx_other 0) ↔
       bucket (grocery_rule (Some "not")) [tx_other 0] = Ok [row (tx_other 0)])
  ∧ (¬ passes_label_filter (grocery_rule (Some "not")) (tx_other 0) ↔
       bucket (grocery_rule (Some "not")) [tx_other 0] = Ok [])
  ∧ (inverted "not" → ({["Shared"]} : gset string) = {["Shared"]} →
       (t_labels (tx_other 0) = {["Shared"]} →
          bucket (grocery_rule (Some "not")) [tx_other 0] = Ok [])
       ∧ (t_labels (tx_other 0) = {["Other"]} →
          bucket (grocery_rule (Some "not")) [tx_other 0] = Ok [row (tx_other 0)])).
Proof.
  apply (label_filter_rule (grocery_rule (Some "not")) {["Grocery"]} {["Shared"]} "not"
           (tx_other 0)); [reflexivity|reflexivity|reflexivity|].
  apply elem_of_singleton. reflexivity.
Defined.

(** C3. Whatever the table and the period, [cashflow_statement] raises
    [NameError]: line 133 reads [cashflow_dict], a name bound neither in the
    function nor in the module; no statement is ever returned. *)
Theorem cashflow_statement_raises (cashflow : Totals) (period : Period) :
  cashflow_statement cashflow period = Raise (NameError "cashflow_dict")
  ∧ ∀ st : Statement, cashflow_statement cashflow period ≠ Ok st.
Proof.
  split; [apply cashflow_dict_unbound|]. intros st. by rewrite cashflow_dict_unbound.
Qed.

(** C7. On the per-leaf totals Salary 1000, Interest 50, Rent -700 the
    function raises [NameError] instead of returning the statement. *)
Theorem statement_totals_not_returned (period : Period) :
  cashflow_statement salary_interest_rent period = Raise (NameError "cashflow_dict").
Proof. apply cashflow_dict_unbound. Qed.

(** C4. On empty inputs both functions raise: [calc_cashflow] on line 110
    ([MultiIndex.from_tuples] of no column), leaving the store as it was, and
    [cashflow_statement] on line 133. *)
Theorem empty_input_raises :
  calc_cashflow {| category_dict := ∅; transactions := [] |}
  = (Raise TypeError, {| category_dict := ∅; transactions := [] |})
  ∧ cashflow_statement [] (PStr "2020") = Raise (NameError "cashflow_dict").
Proof. split; [decide_eq|apply cashflow_dict_unbound]. Qed.

(** C6, as stated, fails: under the rule with labels [{"Shared"}] and normal
    logic the bucket does not hold the transaction without labels. *)
Lemma unlabelled_transaction_excluded :
  ¬ ∃ c, bucket (grocery_rule (Some "")) grocery_transactions = Ok c
         ∧ row (tx_shared (to_timestamp 3)) ∈ c
         ∧ (row (tx_other (to_timestamp 2)) ∉ c)
         ∧ row (tx_unlabelled (to_timestamp 1)) ∈ c.
Proof.
  intros (c & Hc & _ & _ & H).
  assert (bucket (grocery_rule (Some "")) grocery_transactions
          = Ok [row (tx_shared (to_timestamp 3))]) as Hb by decide_eq.
  rewrite Hb in Hc. injection Hc as <-.
  apply list_elem_of_singleton in H. apply (f_equal fst) in H. vm_compute in H. discriminate.
Qed.

(** C6, amended. Under the rule with categories [{"Grocery"}], labels
    [{"Shared"}] and normal logic (given, or defaulted by normalization) the
    bucket holds the transaction labelled [{"Shared"}] and neither the one
    labelled [{"Other"}] nor the one without labels; the table of the three
    transactions holds -50 on the day of the first and 0 on the two others. *)
Theorem label_logic_normal (x1 x2 x3 : Timestamp) :
  bucket (grocery_rule (Some "")) [tx_shared x1; tx_other x2; tx_unlabelled x3]
  = Ok [row (tx_shared x1)]
  ∧ bucket (normalize_leaf (grocery_rule None)) [tx_shared x1; tx_other x2; tx_unlabelled x3]
    = Ok [row (tx_shared x1)]
  ∧ (calc_cashflow {| category_dict := grocery_taxonomy None;
                      transactions := grocery_transactions |}).1
    = Ok grocery_table.
Proof.
  split; [|split].
  - by rewrite (bucket_full _ {["Grocery"]} {["Shared"]} "").
  - by rewrite (bucket_full _ {["Grocery"]} {["Shared"]} "").
  - decide_eq.
Qed.

(** C8, as stated, fails: the normalization pass returns normally on a
    taxonomy with a leaf that lacks ['categories'], and gives that leaf its
    defaults. *)
Lemma normalization_accepts_missing_categories :
  let s := {| category_dict := malformed_taxonomy; transactions := grocery_transactions |} in
  (∃ v2, leaf_at (category_dict s) "Inflow" "Operating" "Salary" = Some v2
         ∧ categories v2 = None)
  ∧ ¬ (∃ e, (normalize_taxonomy s).1 = Raise e)
  ∧ leaf_at (category_dict (normalize_taxonomy s).2) "Inflow" "Operating" "Salary"
    = Some {| categories := None; labels := Some ∅; logic := Some "" |}.
Proof.
  cbn zeta. split; [|split].
  - exists {| categories := None; labels := None; logic := None |}.
    split; [decide_eq|reflexivity].
  - intros [e He]. discriminate He.
  - decide_eq.
Qed.

(** C8, amended. When a leaf lacks ['categories'], [calc_cashflow] raises
    [KeyError('categories')] and returns no table; the error comes from the
    classification, after the normalization pass has returned normally and
    given every leaf its defaults. *)
Theorem missing_categories_raises (s : Store) (k0 k1 k2 : string) (v2 : Leaf) :
  leaf_at (category_dict s) k0 k1 k2 = Some v2 →
  categories v2 = None →
  let s' := {| category_dict := normalize (category_dict s);
               transactions := transactions s |} in
  calc_cashflow s = (Raise (KeyError "categories"), s')
  ∧ normalize_taxonomy s = (Ok tt, s')
  ∧ classify (category_dict s') (transactions s') = Raise (KeyError "categories").
Proof.
  intros Hleaf Hc. cbn zeta.
  assert (classify (normalize (category_dict s)) (transactions s)
          = Raise (KeyError "categories")) as Hclassify.
  { apply (classify_no_categories _ _ k0 k1 k2 (normalize_leaf v2)).
    - apply normalize_normalized.
    - by rewrite leaf_at_normalize, Hleaf.
    - done. }
  split; [|split; [done|exact Hclassify]].
  rewrite (surjective_pairing (calc_cashflow s)).
  by rewrite calc_cashflow_store, calc_cashflow_result, Hclassify.
Qed.

Lemma missing_categories_raises_witness :
  let s := {| category_dict := malformed_taxonomy; transactions := grocery_transactions |} in
  let s' := {| category_dict := normalize (category_dict s);
               transactions := transactions s |} in
  calc_cashflow s = (Raise (KeyError "categories"), s')
  ∧ normalize_taxonomy s = (Ok tt, s')
  ∧ classify (category_dict s') (transactions s') = Raise (KeyError "categories").
Proof.
  apply (missing_categories_raises
           {| category_dict := malformed_taxonomy; transactions := grocery_transactions |}
           "Inflow" "Operating" "Salary"
           {| categories := None; labels := None; logic := None |}).
  - vm_compute. reflexivity.
  - reflexivity.
Defined.





